(** * Verification of package [cfg] (pkg/cfg/cfg.go)

    The package keeps named identity-provider accounts in sections of one
    configuration file.  This development embeds the account type, its
    validation and rendering, and the configuration manager (open, save,
    load, load-and-verify), and proves the properties stated for them.

    The package calls three libraries whose code is not part of it:
    [net/url] (URL parsing), [go-homedir] (tilde expansion) and [ini.v1]
    (the sectioned key-value file).  They are taken as an interface,
    [Collaborators]; the functions of the package are written once, over
    any implementation of it.  Properties that only depend on the package's
    own control flow are proved for every implementation; properties that
    depend on what the store does are proved for [spec_model], the
    implementation written after the specification's description of the
    collaborators. *)

From Stdlib Require Import ZArith String Ascii List Lia.
From Stdlib Require Import DecimalString DecimalZ DecimalPos.
From stdpp Require Import base tactics option list strings gmap.

(* ================================================================== *)
(** ** Errors *)

(** Go's [error] values as the package produces and compares them.
    [errors.New] and [errors.Wrap] (github.com/pkg/errors) return pointers,
    and [==] on two errors compares those pointers.  The package-level
    variable [ErrIdpAccountNotFound] is allocated once, so it is a value of
    its own; every other [errors.New] result is a different pointer, even
    with the same message.  The [nil] error is [None] of [option error]. *)
Inductive error : Type :=
| ErrIdpAccountNotFound
| errors_New (message : string)
| errors_Wrap (cause : error) (message : string)
| lib_error (message : string).

(** The [Error()] method: a wrapped error prints its message, a colon and
    the message of its cause. *)
Fixpoint Error (e : error) : string :=
  match e with
  | ErrIdpAccountNotFound => "IDP account not found, run configure to set it up"
  | errors_New m => m
  | errors_Wrap c m => m +:+ ": " +:+ Error c
  | lib_error m => m
  end.

(** A Go result pair [(T, error)] of which exactly one component is set. *)
Inductive result (A : Type) : Type :=
| Ok (a : A)
| Err (e : error).
Arguments Ok {A} a.
Arguments Err {A} e.

(* ================================================================== *)
(** ** Constants and the account type *)

Definition DefaultConfigPath : string := "~/.saml2aws".
Definition DefaultAmazonWebservicesURN : string := "urn:amazon:webservices".
Definition DefaultSessionDuration : Z := 3600.
Definition DefaultProfile : string := "saml".

(** [IDPAccount]: Go strings are byte strings, [int] fields are integers on
    which the package does no arithmetic. *)
Record IDPAccount : Type := mkIDPAccount {
  AppID : string;
  URL : string;
  Username : string;
  Provider : string;
  MFA : string;
  SkipVerify : bool;
  Timeout : Z;
  AmazonWebservicesURN : string;
  SessionDuration : Z;
  Profile : string;
  Subdomain : string;
  RoleARN : string
}.

(** [NewIDPAccount]: the three defaults, every other field at Go's zero
    value. *)
Definition NewIDPAccount : IDPAccount :=
  {| AppID := "";
     URL := "";
     Username := "";
     Provider := "";
     MFA := "";
     SkipVerify := false;
     Timeout := 0;
     AmazonWebservicesURN := DefaultAmazonWebservicesURN;
     SessionDuration := DefaultSessionDuration;
     Profile := DefaultProfile;
     Subdomain := "";
     RoleARN := "" |}.

(** [reflect.DeepEqual] on two [*IDPAccount]: the pointed structs are
    compared field by field. *)
Definition DeepEqual (a b : IDPAccount) : bool :=
  String.eqb (AppID a) (AppID b)
  && String.eqb (URL a) (URL b)
  && String.eqb (Username a) (Username b)
  && String.eqb (Provider a) (Provider b)
  && String.eqb (MFA a) (MFA b)
  && Bool.eqb (SkipVerify a) (SkipVerify b)
  && Z.eqb (Timeout a) (Timeout b)
  && String.eqb (AmazonWebservicesURN a) (AmazonWebservicesURN b)
  && Z.eqb (SessionDuration a) (SessionDuration b)
  && String.eqb (Profile a) (Profile b)
  && String.eqb (Subdomain a) (Subdomain b)
  && String.eqb (RoleARN a) (RoleARN b).

(* ================================================================== *)
(** ** Formatting verbs of [fmt.Sprintf] *)

Definition nl : string := String (ascii_of_nat 10) EmptyString.

(** [%v] of a bool. *)
Definition fmt_bool (b : bool) : string := if b then "true" else "false".

(** [%d] of an int: signed decimal, no padding. *)
Definition fmt_int (z : Z) : string := NilZero.string_of_int (Z.to_int z).

(** The [String] method of [IDPAccount]. *)
Definition IDPAccount_String (ia : IDPAccount) : string :=
  let appID :=
    if String.eqb (Provider ia) "OneLogin"
    then nl +:+ "  AppID: " +:+ AppID ia
         +:+ nl +:+ "  Subdomain: " +:+ Subdomain ia
    else "" in
  "account {" +:+ appID
  +:+ nl +:+ "  URL: " +:+ URL ia
  +:+ nl +:+ "  Username: " +:+ Username ia
  +:+ nl +:+ "  Provider: " +:+ Provider ia
  +:+ nl +:+ "  MFA: " +:+ MFA ia
  +:+ nl +:+ "  SkipVerify: " +:+ fmt_bool (SkipVerify ia)
  +:+ nl +:+ "  AmazonWebservicesURN: " +:+ AmazonWebservicesURN ia
  +:+ nl +:+ "  SessionDuration: " +:+ fmt_int (SessionDuration ia)
  +:+ nl +:+ "  Profile: " +:+ Profile ia
  +:+ nl +:+ "  RoleARN: " +:+ RoleARN ia
  +:+ nl +:+ "}".


(** [ConfigManager]: the resolved path of the configuration file. *)
Record ConfigManager : Type := mkConfigManager {
  configPath : string
}.

(** [IsErrIdpAccountNotFound]: pointer comparison with the package-level
    value. *)
Definition IsErrIdpAccountNotFound (err : option error) : bool :=
  match err with
  | Some ErrIdpAccountNotFound => true
  | _ => false
  end.

(* ================================================================== *)
(** ** The libraries the package calls *)

(** What the package uses of [net/url], [go-homedir] and [ini.v1].  A
    [*ini.File] is a document held in memory and a [*ini.Section] points
    into it: the operations on a section therefore take the file it lives
    in and, when they write, return that file updated.  [fs] is the state
    of the file system; only [File_SaveTo] changes it. *)
Class Collaborators : Type := {
  url_Parse : string -> option error;
  homedir_Expand : string -> result string;
  fs : Type;
  ini_File : Type;
  ini_Section : Type;
  ini_LoadSources : bool -> string -> fs -> result ini_File;
  File_NewSection : ini_File -> string -> result (ini_File * ini_Section);
  Section_ReflectFrom :
    ini_File -> ini_Section -> IDPAccount -> ini_File * option error;
  File_SaveTo : ini_File -> string -> fs -> fs * option error;
  File_Section : ini_File -> string -> ini_File * ini_Section;
  Section_MapTo :
    ini_File -> ini_Section -> IDPAccount -> IDPAccount * option error
}.

(* ================================================================== *)
(** ** The functions of the package *)

Section Package.
Context `{C : Collaborators}.

(** The OneLogin block of [Validate]. *)
Definition Validate_OneLogin (ia : IDPAccount) : option error :=
  if String.eqb (Provider ia) "OneLogin" then
    if String.eqb (AppID ia) "" then
      Some (errors_New "app ID empty in idp account")
    else if String.eqb (Subdomain ia) "" then
      Some (errors_New "subdomain empty in idp account")
    else None
  else None.

(** [Validate]: the checks in the order of the source, each returning at
    once. *)
Definition Validate (ia : IDPAccount) : option error :=
  match Validate_OneLogin ia with
  | Some e => Some e
  | None =>
    if String.eqb (URL ia) "" then
      Some (errors_New "URL empty in idp account")
    else
      match url_Parse (URL ia) with
      | Some _ => Some (errors_New "URL parse failed")
      | None =>
        if String.eqb (Provider ia) "" then
          Some (errors_New "Provider empty in idp account")
        else if String.eqb (MFA ia) "" then
          Some (errors_New "MFA empty in idp account")
        else if String.eqb (Profile ia) "" then
          Some (errors_New "Profile empty in idp account")
        else None
      end
  end.

(** Whether [url.Parse] returns a [nil] error. *)
Definition url_parses (u : string) : bool :=
  match url_Parse u with
  | None => true
  | Some _ => false
  end.

(** [NewConfigManager]. *)
Definition NewConfigManager (configFile : string) : result ConfigManager :=
  let configFile :=
    if String.eqb configFile "" then DefaultConfigPath else configFile in
  match homedir_Expand configFile with
  | Err err => Err err
  | Ok configPath => Ok (mkConfigManager configPath)
  end.

(** [SaveIDPAccount]: the file system after the call and the error
    returned ([None] for [nil]). *)
Definition SaveIDPAccount (cm : ConfigManager) (idpAccountName : string)
    (account : IDPAccount) (s : fs) : fs * option error :=
  match Validate account with
  | Some err => (s, Some (errors_Wrap err "Account validation failed"))
  | None =>
    match ini_LoadSources true (configPath cm) s with
    | Err err => (s, Some (errors_Wrap err "Unable to load configuration file"))
    | Ok cfg =>
      match File_NewSection cfg idpAccountName with
      | Err err =>
        (s, Some (errors_Wrap err
                    "Unable to build a new section in configuration file"))
      | Ok (cfg, newSec) =>
        match Section_ReflectFrom cfg newSec account with
        | (_, Some err) =>
          (s, Some (errors_Wrap err
                      "Unable to save account to configuration file"))
        | (cfg, None) =>
          match File_SaveTo cfg (configPath cm) s with
          | (s', Some err) =>
            (s', Some (errors_Wrap err "Failed to save configuration file"))
          | (s', None) => (s', None)
          end
        end
      end
    end
  end.

(** [readAccount]. *)
Definition readAccount (idpAccountName : string) (cfg : ini_File)
    : result IDPAccount :=
  let account := NewIDPAccount in
  let '(cfg, sec) := File_Section cfg idpAccountName in
  match Section_MapTo cfg sec account with
  | (_, Some err) => Err (errors_Wrap err "Unable to map account")
  | (account, None) => Ok account
  end.

(** [LoadIDPAccount]. *)
Definition LoadIDPAccount (cm : ConfigManager) (idpAccountName : string)
    (s : fs) : result IDPAccount :=
  match ini_LoadSources true (configPath cm) s with
  | Err err => Err (errors_Wrap err "Unable to load configuration file")
  | Ok cfg => readAccount idpAccountName cfg
  end.

(** [LoadVerifyIDPAccount]. *)
Definition LoadVerifyIDPAccount (cm : ConfigManager) (idpAccountName : string)
    (s : fs) : result IDPAccount :=
  match ini_LoadSources true (configPath cm) s with
  | Err err => Err (errors_Wrap err "Unable to load configuration file")
  | Ok cfg =>
    match readAccount idpAccountName cfg with
    | Err err => Err (errors_Wrap err "Unable to read idp account")
    | Ok account =>
      if DeepEqual account NewIDPAccount then Err ErrIdpAccountNotFound
      else Ok account
    end
  end.

(** A run of saves, each on the file system the previous one left. *)
Definition run_saves (cm : ConfigManager)
    (saves : list (string * IDPAccount)) (s : fs) : fs :=
  fold_left (fun s nv => (SaveIDPAccount cm nv.1 nv.2 s).1) saves s.

End Package.

(* ================================================================== *)
(** ** The rules of [Validate] as the specification lists them *)

(** One rule: when it is violated, and the message of its failure. *)
Record rule : Type := mkRule {
  violated : IDPAccount -> bool;
  rule_message : string
}.

(** The seven rules in the listed order; [parses] tells whether the URL
    parses. *)
Definition Validate_rules (parses : string -> bool) : list rule :=
  [ mkRule (fun ia => String.eqb (Provider ia) "OneLogin"
                      && String.eqb (AppID ia) "")
           "app ID empty in idp account";
    mkRule (fun ia => String.eqb (Provider ia) "OneLogin"
                      && String.eqb (Subdomain ia) "")
           "subdomain empty in idp account";
    mkRule (fun ia => String.eqb (URL ia) "") "URL empty in idp account";
    mkRule (fun ia => negb (parses (URL ia))) "URL parse failed";
    mkRule (fun ia => String.eqb (Provider ia) "")
           "Provider empty in idp account";
    mkRule (fun ia => String.eqb (MFA ia) "") "MFA empty in idp account";
    mkRule (fun ia => String.eqb (Profile ia) "")
           "Profile empty in idp account" ].

(** First failure wins: the message of the first violated rule. *)
Fixpoint first_violation (rules : list rule) (ia : IDPAccount)
    : option string :=
  match rules with
  | [] => None
  | r :: rules =>
    if violated r ia then Some (rule_message r) else first_violation rules ia
  end.

Definition Validate_spec (parses : string -> bool) (ia : IDPAccount)
    : option error :=
  option_map errors_New (first_violation (Validate_rules parses) ia).

(* ================================================================== *)
(** ** Association lists: ordered sections and ordered keys *)

Section AList.
Context {V : Type}.

(** The value of the first entry under key [k]. *)
Fixpoint alist_get (k : string) (l : list (string * V)) : option V :=
  match l with
  | [] => None
  | (k', v) :: l => if String.eqb k k' then Some v else alist_get k l
  end.

(** Replace the value of the first entry under [k] where it stands, or add
    the entry at the end. *)
Fixpoint alist_set (k : string) (v : V) (l : list (string * V))
    : list (string * V) :=
  match l with
  | [] => [(k, v)]
  | (k', v') :: l =>
    if String.eqb k k' then (k, v) :: l else (k', v') :: alist_set k v l
  end.

(** The writes of a list of pairs, one after the other. *)
Definition alist_set_all (ps l : list (string * V)) : list (string * V) :=
  fold_left (fun b kv => alist_set kv.1 kv.2 b) ps l.

(** How many entries stand under [k]. *)
Fixpoint alist_count (k : string) (l : list (string * V)) : nat :=
  match l with
  | [] => 0
  | (k', _) :: l => (if String.eqb k k' then 1 else 0) + alist_count k l
  end.

End AList.

(* ================================================================== *)
(** ** The collaborators as the specification describes them *)

(** Modelled from the spec: the structured key-value store ([ini.v1] is not
    part of the package).  A section is an ordered list of keys with text
    values, a document an ordered list of named sections. *)
Definition section_body : Type := list (string * string).

(** Modelled from the spec: a document of the store, one section per
    account name. *)
Definition document : Type := list (string * section_body).

(** Modelled from the spec: what a path of the file system holds, a file
    the store can parse or one it cannot. *)
Inductive file_content : Type :=
| Parsed (d : document)
| Unparseable.

(** Modelled from the spec: the file system, the files by path and the
    paths that cannot be written. *)
Record fs_state : Type := mkFs {
  files : gmap string file_content;
  unwritable : gset string
}.

(** Modelled from the spec: load-document(path, tolerateMissing); a missing
    file is the empty document when tolerated. *)
Definition load_document (tolerateMissing : bool) (path : string)
    (s : fs_state) : result document :=
  match files s !! path with
  | None =>
    if tolerateMissing then Ok [] else Err (lib_error "no such file")
  | Some (Parsed d) => Ok d
  | Some Unparseable => Err (lib_error "unable to parse file")
  end.

(** Modelled from the spec: document.saveTo(path) rewrites the whole file,
    or fails and leaves the file system as it was. *)
Definition saveTo (d : document) (path : string) (s : fs_state)
    : fs_state * option error :=
  if decide (path ∈ unwritable s)
  then (s, Some (lib_error "unable to write file"))
  else (mkFs (<[path := Parsed d]> (files s)) (unwritable s), None).

(** Modelled from the spec: document.getOrCreateSection(name); the section
    is referred to by its name. *)
Definition getOrCreateSection (d : document) (name : string)
    : document * string :=
  match alist_get name d with
  | Some _ => (d, name)
  | None => (d ++ [(name, [])], name)
  end.

(** The field-key table, from the struct tags of [IDPAccount], with each
    field's value as the store writes it. *)
Definition account_pairs (ia : IDPAccount) : list (string * string) :=
  [ ("app_id", AppID ia);
    ("url", URL ia);
    ("username", Username ia);
    ("provider", Provider ia);
    ("mfa", MFA ia);
    ("skip_verify", fmt_bool (SkipVerify ia));
    ("timeout", fmt_int (Timeout ia));
    ("aws_urn", AmazonWebservicesURN ia);
    ("aws_session_duration", fmt_int (SessionDuration ia));
    ("aws_profile", Profile ia);
    ("subdomain", Subdomain ia);
    ("role_arn", RoleARN ia) ].

(** Modelled from the spec: section.writeFrom(sourceStruct) writes every
    field under its key. *)
Definition writeFrom (b : section_body) (ia : IDPAccount) : section_body :=
  alist_set_all (account_pairs ia) b.

(** Modelled from the spec: the text of a bool and of an int read back. *)
Definition parse_bool (s : string) : option bool :=
  if String.eqb s "true" then Some true
  else if String.eqb s "false" then Some false
  else None.

Definition parse_int (s : string) : option Z :=
  option_map Z.of_int (NilZero.int_of_string s).

(** A value present under [k] overlays the old one; [None] when it is
    present and does not parse. *)
Definition overlay {A : Type} (parse : string -> option A) (k : string)
    (b : section_body) (old : A) : option A :=
  match alist_get k b with
  | None => Some old
  | Some v => parse v
  end.

(** Modelled from the spec: section.readInto(targetStruct) overlays the
    values present in the section onto the target, keys outside the table
    are ignored; a value that does not parse as its field's type fails the
    mapping. *)
Definition readInto (b : section_body) (ia : IDPAccount)
    : IDPAccount * option error :=
  match overlay parse_bool "skip_verify" b (SkipVerify ia),
        overlay parse_int "timeout" b (Timeout ia),
        overlay parse_int "aws_session_duration" b (SessionDuration ia) with
  | Some skipVerify, Some timeout, Some sessionDuration =>
    ({| AppID := default (AppID ia) (alist_get "app_id" b);
        URL := default (URL ia) (alist_get "url" b);
        Username := default (Username ia) (alist_get "username" b);
        Provider := default (Provider ia) (alist_get "provider" b);
        MFA := default (MFA ia) (alist_get "mfa" b);
        SkipVerify := skipVerify;
        Timeout := timeout;
        AmazonWebservicesURN :=
          default (AmazonWebservicesURN ia) (alist_get "aws_urn" b);
        SessionDuration := sessionDuration;
        Profile := default (Profile ia) (alist_get "aws_profile" b);
        Subdomain := default (Subdomain ia) (alist_get "subdomain" b);
        RoleARN := default (RoleARN ia) (alist_get "role_arn" b) |}, None)
  | _, _, _ => (ia, Some (lib_error "unable to map section"))
  end.

(** Modelled from the spec: the home-directory resolver expands a leading
    tilde to the home directory and fails when that directory cannot be
    determined; [home] is the outcome of determining it. *)
Definition expand_home (home : result string) (path : string)
    : result string :=
  match path with
  | String "~"%char rest =>
    match home with
    | Ok dir => Ok (dir +:+ rest)
    | Err e => Err e
    end
  | _ => Ok path
  end.

(** Modelled from the spec: the collaborators together.  The URL parser is
    left open ([parse_url]); a section reference is the section's name in
    the document it points into. *)
Definition spec_model (parse_url : string -> option error)
    (home : result string) : Collaborators :=
  {| url_Parse := parse_url;
     homedir_Expand := expand_home home;
     fs := fs_state;
     ini_File := document;
     ini_Section := string;
     ini_LoadSources := load_document;
     File_NewSection := fun d name => Ok (getOrCreateSection d name);
     Section_ReflectFrom := fun d sec ia =>
       match alist_get sec d with
       | Some b => (alist_set sec (writeFrom b ia) d, None)
       | None => (d, Some (lib_error "no such section"))
       end;
     File_SaveTo := saveTo;
     File_Section := getOrCreateSection;
     Section_MapTo := fun d sec ia =>
       readInto (default [] (alist_get sec d)) ia |}.

(** The document a save of [ia] under [name] writes back when it loaded
    [d]: the section is found or created, then every field is written. *)
Definition saved_document (d : document) (name : string) (ia : IDPAccount)
    : document :=
  alist_set name (writeFrom (default [] (alist_get name d)) ia)
    (getOrCreateSection d name).1.

(** No section [name] is stored at [path]: the file is missing, or it is a
    document without that section. *)
Definition section_absent (name path : string) (s : fs_state) : Prop :=
  match files s !! path with
  | None => True
  | Some (Parsed d) => alist_get name d = None
  | Some Unparseable => False
  end.

(** The number of sections called [name] in the document at [path]. *)
Definition sections_named (name path : string) (s : fs_state) : nat :=
  match files s !! path with
  | Some (Parsed d) => alist_count name d
  | _ => 0
  end.

(** A URL parser for the examples: it refuses a string with an ASCII
    control character. *)
Definition is_control (c : ascii) : bool :=
  (nat_of_ascii c <? 32)%nat || (nat_of_ascii c =? 127)%nat.

Fixpoint has_control (s : string) : bool :=
  match s with
  | EmptyString => false
  | String c s => is_control c || has_control s
  end.

Definition parse_no_control (s : string) : option error :=
  if has_control s then Some (lib_error "invalid control character in URL")
  else None.

(** The state in which no path holds a file and every path can be
    written. *)
Definition empty_fs : fs_state := mkFs ∅ ∅.

(* ================================================================== *)
(** ** Concrete data for the examples *)

Definition example_model : Collaborators :=
  spec_model parse_no_control (Ok "/home/alice").

Definition example_cm : ConfigManager := mkConfigManager "/home/alice/.saml2aws".

(** The default account with url, provider, mfa and profile set. *)
Definition example_account : IDPAccount :=
  {| AppID := "";
     URL := "https://x.example/sso";
     Username := "";
     Provider := "Ping";
     MFA := "Auto";
     SkipVerify := false;
     Timeout := 0;
     AmazonWebservicesURN := DefaultAmazonWebservicesURN;
     SessionDuration := DefaultSessionDuration;
     Profile := "saml";
     Subdomain := "";
     RoleARN := "" |}.

(** The same account without its mfa: it does not validate. *)
Definition example_no_mfa : IDPAccount :=
  {| AppID := "";
     URL := "https://x.example/sso";
     Username := "";
     Provider := "Ping";
     MFA := "";
     SkipVerify := false;
     Timeout := 0;
     AmazonWebservicesURN := DefaultAmazonWebservicesURN;
     SessionDuration := DefaultSessionDuration;
     Profile := "saml";
     Subdomain := "";
     RoleARN := "" |}.

(** A OneLogin account without app ID whose other fields are all set. *)
Definition example_onelogin : IDPAccount :=
  {| AppID := "";
     URL := "https://acme.onelogin.com/trust";
     Username := "alice";
     Provider := "OneLogin";
     MFA := "Auto";
     SkipVerify := false;
     Timeout := 0;
     AmazonWebservicesURN := DefaultAmazonWebservicesURN;
     SessionDuration := DefaultSessionDuration;
     Profile := "saml";
     Subdomain := "acme";
     RoleARN := "" |}.

(** The default account with a timeout of seven seconds. *)
Definition example_timeout : IDPAccount :=
  {| AppID := "";
     URL := "";
     Username := "";
     Provider := "";
     MFA := "";
     SkipVerify := false;
     Timeout := 7;
     AmazonWebservicesURN := DefaultAmazonWebservicesURN;
     SessionDuration := DefaultSessionDuration;
     Profile := DefaultProfile;
     Subdomain := "";
     RoleARN := "" |}.

(** The file system after [example_account] was saved as "test" on the
    empty one. *)
Definition example_saved_fs : fs_state :=
  (@SaveIDPAccount example_model example_cm "test" example_account
     empty_fs).1.

(* ================================================================== *)
(** ** Occurrence of a text in a rendering *)

(** [s] occurs in [t]. *)
Definition occurs_in (s t : string) : Prop :=
  exists a b : string, t = a +:+ s +:+ b.



(** A file system whose configuration file does not parse. *)
Definition example_bad_fs : fs_state :=
  mkFs {[ "/home/alice/.saml2aws" := Unparseable ]} ∅.

(* ================================================================== *)
(** ** Further notions for the properties of the package *)

(** The fields [Validate] reads. *)
Definition same_validated_fields (ia ib : IDPAccount) : Prop :=
  Provider ia = Provider ib
  /\ AppID ia = AppID ib
  /\ Subdomain ia = Subdomain ib
  /\ URL ia = URL ib
  /\ MFA ia = MFA ib
  /\ Profile ia = Profile ib.

(** The messages with which [SaveIDPAccount] wraps a failure, in the order
    of its steps. *)
Definition SaveIDPAccount_messages : list string :=
  [ "Account validation failed";
    "Unable to load configuration file";
    "Unable to build a new section in configuration file";
    "Unable to save account to configuration file";
    "Failed to save configuration file" ].

(** [s] has no line break. *)
Fixpoint single_line (s : string) : bool :=
  match s with
  | EmptyString => true
  | String c s => negb (Ascii.eqb c (ascii_of_nat 10)) && single_line s
  end.

(** No string field of [ia] has a line break. *)
Definition single_line_fields (ia : IDPAccount) : Prop :=
  single_line (AppID ia) = true
  /\ single_line (URL ia) = true
  /\ single_line (Username ia) = true
  /\ single_line (Provider ia) = true
  /\ single_line (MFA ia) = true
  /\ single_line (AmazonWebservicesURN ia) = true
  /\ single_line (Profile ia) = true
  /\ single_line (Subdomain ia) = true
  /\ single_line (RoleARN ia) = true.

(** The two accounts agree on what [String] prints: the nine fields of the
    format, and the two OneLogin fields when the provider is OneLogin. *)
Definition same_rendered_fields (ia ib : IDPAccount) : Prop :=
  URL ia = URL ib
  /\ Username ia = Username ib
  /\ Provider ia = Provider ib
  /\ MFA ia = MFA ib
  /\ SkipVerify ia = SkipVerify ib
  /\ AmazonWebservicesURN ia = AmazonWebservicesURN ib
  /\ SessionDuration ia = SessionDuration ib
  /\ Profile ia = Profile ib
  /\ RoleARN ia = RoleARN ib
  /\ (Provider ia = "OneLogin" ->
      AppID ia = AppID ib /\ Subdomain ia = Subdomain ib).

(* ================================================================== *)
(** * Properties *)

(** ** The account type *)

Lemma DeepEqual_spec (a b : IDPAccount) : DeepEqual a b = true <-> a = b.
Proof.
  destruct a, b; unfold DeepEqual; cbn [AppID URL Username Provider MFA
    SkipVerify Timeout AmazonWebservicesURN SessionDuration Profile
    Subdomain RoleARN].
  rewrite !andb_true_iff, !String.eqb_eq, !Z.eqb_eq, Bool.eqb_true_iff.
  split.
  - intros [[[[[[[[[[[-> ->] ->] ->] ->] ->] ->] ->] ->] ->] ->] ->].
    reflexivity.
  - intros [= -> -> -> -> -> -> -> -> -> -> -> ->]. repeat split.
Qed.

Lemma DeepEqual_false (a b : IDPAccount) : DeepEqual a b = false <-> a <> b.
Proof.
  rewrite <- DeepEqual_spec. destruct (DeepEqual a b); split; congruence.
Qed.

(** C6. The constructor takes no input and cannot fail (it is a constant);
    the account it builds has awsURN "urn:amazon:webservices",
    sessionDuration 3600 and profile "saml", and every other field is the
    empty string, false or 0. *)
Theorem NewIDPAccount_defaults :
  AmazonWebservicesURN NewIDPAccount = "urn:amazon:webservices"
  /\ SessionDuration NewIDPAccount = 3600%Z
  /\ Profile NewIDPAccount = "saml"
  /\ AppID NewIDPAccount = ""
  /\ URL NewIDPAccount = ""
  /\ Username NewIDPAccount = ""
  /\ Provider NewIDPAccount = ""
  /\ MFA NewIDPAccount = ""
  /\ SkipVerify NewIDPAccount = false
  /\ Timeout NewIDPAccount = 0%Z
  /\ Subdomain NewIDPAccount = ""
  /\ RoleARN NewIDPAccount = "".
Proof. repeat split. Qed.

(** ** Validation *)

Section ValidateFacts.
Context `{C : Collaborators}.

Lemma Validate_refines_spec (ia : IDPAccount) :
  Validate ia = Validate_spec url_parses ia.
Proof.
  unfold Validate, Validate_spec, Validate_OneLogin, url_parses; cbn.
  destruct (String.eqb (Provider ia) "OneLogin"); cbn.
  - destruct (String.eqb (AppID ia) ""); cbn; [reflexivity|].
    destruct (String.eqb (Subdomain ia) ""); cbn; [reflexivity|].
    destruct (String.eqb (URL ia) ""); cbn; [reflexivity|].
    destruct (url_Parse (URL ia)); cbn; [reflexivity|].
    destruct (String.eqb (Provider ia) ""); cbn; [reflexivity|].
    destruct (String.eqb (MFA ia) ""); cbn; [reflexivity|].
    destruct (String.eqb (Profile ia) ""); reflexivity.
  - destruct (String.eqb (URL ia) ""); cbn; [reflexivity|].
    destruct (url_Parse (URL ia)); cbn; [reflexivity|].
    destruct (String.eqb (Provider ia) ""); cbn; [reflexivity|].
    destruct (String.eqb (MFA ia) ""); cbn; [reflexivity|].
    destruct (String.eqb (Profile ia) ""); reflexivity.
Qed.

(** What a passing account looks like. *)
Lemma Validate_None_inv (ia : IDPAccount) :
  Validate ia = None ->
  URL ia <> "" /\ url_Parse (URL ia) = None /\ Provider ia <> ""
  /\ MFA ia <> "" /\ Profile ia <> ""
  /\ (Provider ia = "OneLogin" -> AppID ia <> "" /\ Subdomain ia <> "").
Proof.
  unfold Validate, Validate_OneLogin.
  destruct (String.eqb_spec (Provider ia) "OneLogin") as [HP|HP].
  - destruct (String.eqb_spec (AppID ia) ""); [discriminate|].
    destruct (String.eqb_spec (Subdomain ia) ""); [discriminate|].
    destruct (String.eqb_spec (URL ia) ""); [discriminate|].
    destruct (url_Parse (URL ia)); [discriminate|].
    destruct (String.eqb_spec (Provider ia) ""); [discriminate|].
    destruct (String.eqb_spec (MFA ia) ""); [discriminate|].
    destruct (String.eqb_spec (Profile ia) ""); [discriminate|].
    intros _. repeat split; assumption.
  - destruct (String.eqb_spec (URL ia) ""); [discriminate|].
    destruct (url_Parse (URL ia)); [discriminate|].
    destruct (String.eqb_spec (Provider ia) ""); [discriminate|].
    destruct (String.eqb_spec (MFA ia) ""); [discriminate|].
    destruct (String.eqb_spec (Profile ia) ""); [discriminate|].
    intros _. repeat split; try assumption; contradiction.
Qed.

Lemma Validate_None_not_default (ia : IDPAccount) :
  Validate ia = None -> ia <> NewIDPAccount.
Proof.
  intros H%Validate_None_inv ->. destruct H as (_ & _ & HP & _).
  apply HP. reflexivity.
Qed.

End ValidateFacts.

(** C2. For every account, [Validate] returns [nil] or the failure of the
    first violated rule, in the listed order and with the listed messages
    (OneLogin app ID, OneLogin subdomain, URL empty, URL parse, provider,
    MFA, profile); in particular an account with provider "OneLogin" and an
    empty app ID fails with the app-ID rule whatever its other fields. *)
Theorem Validate_first_violated_rule :
  forall (C : Collaborators) (ia : IDPAccount),
    Validate ia = Validate_spec url_parses ia
    /\ (Provider ia = "OneLogin" -> AppID ia = "" ->
        Validate ia = Some (errors_New "app ID empty in idp account")).
Proof.
  intros C ia. split.
  - apply Validate_refines_spec.
  - intros HP HA. unfold Validate, Validate_OneLogin.
    rewrite HP, HA. reflexivity.
Qed.

Lemma Validate_first_violated_rule_witness :
  @Validate example_model example_onelogin
  = Some (errors_New "app ID empty in idp account").
Proof.
  apply (proj2 (Validate_first_violated_rule example_model example_onelogin));
    reflexivity.
Defined.

(** ** Opening the store *)

(** The path [NewConfigManager] hands to the resolver. *)
Lemma NewConfigManager_unfold `{C : Collaborators} (configFile : string) :
  NewConfigManager configFile =
  match homedir_Expand
          (if String.eqb configFile "" then "~/.saml2aws" else configFile) with
  | Ok p => Ok (mkConfigManager p)
  | Err e => Err e
  end.
Proof.
  unfold NewConfigManager, DefaultConfigPath.
  destruct (homedir_Expand _); reflexivity.
Qed.

(** C7. With an empty path the manager is bound to what the resolver makes
    of "~/.saml2aws", with another path to what the resolver makes of that
    path; it fails exactly when the resolver fails, with the resolver's
    error.  With the resolver of the specification: the empty path gives
    the home directory followed by "/.saml2aws", a path without leading
    tilde is kept as it is, and the call fails exactly when the path to
    expand starts with a tilde and the home directory cannot be determined.
    The function takes and returns no file-system state: it does not touch
    the file. *)
Theorem NewConfigManager_resolves :
  (forall (C : Collaborators) (configFile : string),
      (forall p : string,
          homedir_Expand
            (if String.eqb configFile "" then "~/.saml2aws" else configFile)
          = Ok p <->
          NewConfigManager configFile = Ok (mkConfigManager p))
      /\ (forall e : error,
          homedir_Expand
            (if String.eqb configFile "" then "~/.saml2aws" else configFile)
          = Err e <->
          NewConfigManager configFile = Err e))
  /\ (forall (parse_url : string -> option error) (home : result string)
             (configFile : string),
      (forall dir : string, home = Ok dir ->
          @NewConfigManager (spec_model parse_url home) ""
          = Ok (mkConfigManager (dir +:+ "/.saml2aws")))
      /\ (forall (dir rest : string), home = Ok dir ->
          @NewConfigManager (spec_model parse_url home) (String "~" rest)
          = Ok (mkConfigManager (dir +:+ rest)))
      /\ (configFile <> "" ->
          (forall rest : string, configFile <> String "~" rest) ->
          @NewConfigManager (spec_model parse_url home) configFile
          = Ok (mkConfigManager configFile))
      /\ (forall e : error,
          @NewConfigManager (spec_model parse_url home) configFile = Err e <->
          home = Err e
          /\ exists rest : string,
              (if String.eqb configFile "" then "~/.saml2aws" else configFile)
              = String "~" rest)).
Proof.
  split.
  - intros C configFile. split; intros x; rewrite NewConfigManager_unfold;
      destruct (homedir_Expand _) as [q|e']; split; congruence.
  - intros parse_url home configFile. split; [|split; [|split]].
    + intros dir ->. reflexivity.
    + intros dir rest ->. reflexivity.
    + intros Hne Htilde. rewrite NewConfigManager_unfold.
      destruct (String.eqb_spec configFile "") as [->|_]; [congruence|].
      cbn. unfold expand_home.
      destruct configFile as [|c rest]; [reflexivity|].
      destruct (Ascii.eqb_spec c "~") as [->|Hc].
      * exfalso. apply (Htilde rest). reflexivity.
      * destruct c as [[] [] [] [] [] [] [] []]; try reflexivity.
        exfalso. apply Hc. reflexivity.
    + intros e. rewrite NewConfigManager_unfold. cbn. unfold expand_home.
      destruct (if String.eqb configFile "" then _ else _) as [|c rest].
      { split; [discriminate|]. intros [_ [rest [=]]]. }
      destruct (Ascii.eqb_spec c "~") as [->|Hc].
      * destruct home as [dir|e'].
        -- split; [discriminate|]. intros [[=] _].
        -- split.
           ++ intros [= ->]. split; [reflexivity|]. exists rest. reflexivity.
           ++ intros [[= ->] _]. reflexivity.
      * split.
        -- intros H. exfalso. revert H.
           destruct c as [[] [] [] [] [] [] [] []]; try discriminate.
           exfalso. apply Hc. reflexivity.
        -- intros [_ [rest' [= -> _]]]. exfalso. apply Hc. reflexivity.
Qed.

Lemma NewConfigManager_resolves_witness :
  @NewConfigManager example_model "" = Ok example_cm
  /\ @NewConfigManager example_model "/etc/saml2aws"
     = Ok (mkConfigManager "/etc/saml2aws").
Proof.
  split.
  - exact (proj1 (proj2 NewConfigManager_resolves parse_no_control
                    (Ok "/home/alice") "") "/home/alice" eq_refl).
  - apply (proj1 (proj2 (proj2 (proj2 NewConfigManager_resolves
                    parse_no_control (Ok "/home/alice") "/etc/saml2aws")))).
    + discriminate.
    + intros rest. discriminate.
Defined.

(** ** Saving an account that does not validate *)

(** C4. When [Validate] fails with [err], [SaveIDPAccount] returns [err]
    wrapped as "Account validation failed" and the file system is the one
    it was called on, so that a later load of any name gives what it gave
    before; this holds whatever the store does, as the store is not
    called. *)
Theorem SaveIDPAccount_invalid_no_write :
  forall (C : Collaborators) (cm : ConfigManager) (name : string)
         (account : IDPAccount) (s : fs) (err : error),
    Validate account = Some err ->
    SaveIDPAccount cm name account s
    = (s, Some (errors_Wrap err "Account validation failed"))
    /\ forall name' : string,
        LoadIDPAccount cm name' (SaveIDPAccount cm name account s).1
        = LoadIDPAccount cm name' s.
Proof.
  intros C cm name account s err Hv.
  assert (Hs : SaveIDPAccount cm name account s
               = (s, Some (errors_Wrap err "Account validation failed"))).
  { unfold SaveIDPAccount. rewrite Hv. reflexivity. }
  split; [exact Hs|].
  intros name'. rewrite Hs. reflexivity.
Qed.

Lemma SaveIDPAccount_invalid_no_write_witness :
  @SaveIDPAccount example_model example_cm "test" example_no_mfa empty_fs
  = (empty_fs,
     Some (errors_Wrap (errors_New "MFA empty in idp account")
             "Account validation failed")).
Proof.
  apply (SaveIDPAccount_invalid_no_write example_model example_cm "test"
           example_no_mfa empty_fs (errors_New "MFA empty in idp account")).
  reflexivity.
Defined.

(** ** Loading with the existence check *)

Section LoadVerifyFacts.
Context `{C : Collaborators}.

(** [LoadVerifyIDPAccount] in terms of [LoadIDPAccount]: an account equal
    to the default becomes the not-found value, another account is
    returned, a failure of the load comes back wrapped. *)
Lemma LoadVerify_cases (cm : ConfigManager) (name : string) (s : fs) :
  match LoadIDPAccount cm name s with
  | Ok account =>
    LoadVerifyIDPAccount cm name s =
    if DeepEqual account NewIDPAccount then Err ErrIdpAccountNotFound
    else Ok account
  | Err _ =>
    exists (e : error) (m : string),
      LoadVerifyIDPAccount cm name s = Err (errors_Wrap e m)
  end.
Proof.
  unfold LoadIDPAccount, LoadVerifyIDPAccount.
  destruct (ini_LoadSources true (configPath cm) s) as [cfg|e].
  - destruct (readAccount name cfg) as [account|e]; [reflexivity|].
    eexists _, _. reflexivity.
  - eexists _, _. reflexivity.
Qed.

End LoadVerifyFacts.

(** C3. [LoadVerifyIDPAccount] returns the not-found value exactly when
    [LoadIDPAccount] returns an account equal, field by field, to the
    default one; when [LoadIDPAccount] returns another account, it returns
    that account.  [IsErrIdpAccountNotFound] is true on the not-found value
    and false on [nil] and on every other error. *)
Theorem LoadVerify_not_found_iff :
  forall (C : Collaborators) (cm : ConfigManager) (name : string) (s : fs),
    (LoadVerifyIDPAccount cm name s = Err ErrIdpAccountNotFound <->
     LoadIDPAccount cm name s = Ok NewIDPAccount)
    /\ (forall account : IDPAccount,
         LoadIDPAccount cm name s = Ok account ->
         account <> NewIDPAccount ->
         LoadVerifyIDPAccount cm name s = Ok account)
    /\ (forall err : option error,
         IsErrIdpAccountNotFound err = true <->
         err = Some ErrIdpAccountNotFound).
Proof.
  intros C cm name s.
  pose proof (LoadVerify_cases cm name s) as Hc.
  split; [|split].
  - destruct (LoadIDPAccount cm name s) as [account|e].
    + rewrite Hc. destruct (DeepEqual account NewIDPAccount) eqn:Hd.
      * apply DeepEqual_spec in Hd. subst. split; reflexivity.
      * apply DeepEqual_false in Hd. split; [discriminate|].
        intros [= ->]. contradiction.
    + destruct Hc as (e' & m & ->). split; discriminate.
  - intros account Hl Hne. rewrite Hl in Hc. rewrite Hc.
    apply DeepEqual_false in Hne. rewrite Hne. reflexivity.
  - intros [[| | |]|]; cbn; split; congruence.
Qed.

(** ** The rendering *)

Lemma append_nil (b : string) : "" +:+ b = b.
Proof. reflexivity. Qed.

Lemma append_cons (c : ascii) (a b : string) :
  String c a +:+ b = String c (a +:+ b).
Proof. reflexivity. Qed.

Lemma append_assoc (a b c : string) : (a +:+ b) +:+ c = a +:+ b +:+ c.
Proof.
  induction a as [|x a IH]; [reflexivity|].
  rewrite !append_cons, IH. reflexivity.
Qed.

Lemma occurs_in_here (s b : string) : occurs_in s (s +:+ b).
Proof. exists "", b. reflexivity. Qed.










(** ** Association lists *)

Section AListFacts.
Context {V : Type}.
Implicit Types (k : string) (v : V) (l : list (string * V)).

Lemma alist_get_set_eq k v l : alist_get k (alist_set k v l) = Some v.
Proof.
  induction l as [|[k' v'] l IH]; cbn.
  - rewrite String.eqb_refl. reflexivity.
  - destruct (String.eqb k k') eqn:E; cbn.
    + rewrite String.eqb_refl. reflexivity.
    + rewrite E. exact IH.
Qed.

Lemma alist_get_set_ne k k' v l :
  k <> k' -> alist_get k' (alist_set k v l) = alist_get k' l.
Proof.
  intros Hne. induction l as [|[k0 v0] l IH]; cbn.
  - apply String.eqb_neq in Hne. rewrite String.eqb_sym, Hne. reflexivity.
  - destruct (String.eqb_spec k k0) as [->|Hk]; cbn.
    + apply String.eqb_neq in Hne. rewrite String.eqb_sym, Hne. reflexivity.
    + rewrite IH. reflexivity.
Qed.

Lemma alist_set_same k v l : alist_get k l = Some v -> alist_set k v l = l.
Proof.
  induction l as [|[k' v'] l IH]; cbn; [discriminate|].
  destruct (String.eqb_spec k k') as [->|Hk].
  - intros [= ->]. reflexivity.
  - intros H. rewrite IH by exact H. reflexivity.
Qed.

Lemma alist_get_snoc k k' v l :
  alist_get k (l ++ [(k', v)]) =
  match alist_get k l with
  | Some x => Some x
  | None => if String.eqb k k' then Some v else None
  end.
Proof.
  induction l as [|[k0 v0] l IH]; cbn; [reflexivity|].
  destruct (String.eqb k k0); [reflexivity|exact IH].
Qed.

Lemma alist_get_None_count k l : alist_get k l = None <-> alist_count k l = 0.
Proof.
  induction l as [|[k' v'] l IH]; cbn; [tauto|].
  destruct (String.eqb k k'); cbn; [split; discriminate|exact IH].
Qed.

Lemma alist_count_snoc k k' v l :
  alist_count k (l ++ [(k', v)])
  = alist_count k l + (if String.eqb k k' then 1 else 0).
Proof.
  induction l as [|[k0 v0] l IH]; cbn; [lia|]. rewrite IH. lia.
Qed.

(** Writing under a key that is there changes no count. *)
Lemma alist_count_set_present k k' v l :
  alist_get k l <> None ->
  alist_count k' (alist_set k v l) = alist_count k' l.
Proof.
  induction l as [|[k0 v0] l IH]; cbn; [congruence|].
  destruct (String.eqb_spec k k0) as [->|Hk]; cbn; [reflexivity|].
  intros H. rewrite IH by exact H. reflexivity.
Qed.

Lemma alist_set_all_cons k v ps l :
  alist_set_all ((k, v) :: ps) l = alist_set_all ps (alist_set k v l).
Proof. reflexivity. Qed.

Lemma alist_set_all_get_other k ps l :
  k ∉ ps.*1 -> alist_get k (alist_set_all ps l) = alist_get k l.
Proof.
  revert l. induction ps as [|[k0 v0] ps IH]; intros l Hk; [reflexivity|].
  rewrite fmap_cons in Hk. apply not_elem_of_cons in Hk as [Hne Hk].
  rewrite alist_set_all_cons, IH by exact Hk.
  apply alist_get_set_ne. cbn in Hne. congruence.
Qed.

Lemma alist_set_all_get k v ps l :
  NoDup ps.*1 -> (k, v) ∈ ps -> alist_get k (alist_set_all ps l) = Some v.
Proof.
  revert l. induction ps as [|[k0 v0] ps IH]; intros l Hnd Hin.
  - apply elem_of_nil in Hin. contradiction.
  - rewrite fmap_cons in Hnd. apply NoDup_cons in Hnd as [Hk0 Hnd].
    rewrite alist_set_all_cons.
    apply elem_of_cons in Hin as [[= -> ->]|Hin].
    + rewrite alist_set_all_get_other by exact Hk0. apply alist_get_set_eq.
    + apply IH; assumption.
Qed.

Lemma alist_set_all_same ps l :
  (forall k v, (k, v) ∈ ps -> alist_get k l = Some v) ->
  alist_set_all ps l = l.
Proof.
  induction ps as [|[k0 v0] ps IH]; intros H; [reflexivity|].
  rewrite alist_set_all_cons, alist_set_same.
  - apply IH. intros k v Hin. apply H. apply elem_of_cons. right. exact Hin.
  - apply H. apply elem_of_cons. left. reflexivity.
Qed.

End AListFacts.

(** ** Text of values *)

Lemma parse_bool_fmt_bool (b : bool) : parse_bool (fmt_bool b) = Some b.
Proof. destruct b; reflexivity. Qed.

Lemma parse_int_fmt_int (z : Z) : parse_int (fmt_int z) = Some z.
Proof.
  unfold parse_int, fmt_int. rewrite NilZero.isi.
  - cbn. rewrite DecimalZ.of_to. reflexivity.
  - destruct z as [|p|p]; cbn; try discriminate.
    intros [= H]. exact (DecimalPos.Unsigned.to_uint_nonnil p H).
  - destruct z as [|p|p]; cbn; try discriminate.
    intros [= H]. exact (DecimalPos.Unsigned.to_uint_nonnil p H).
Qed.

(** ** Writing an account to a section and reading it back *)

Lemma account_pairs_keys (ia : IDPAccount) :
  (account_pairs ia).*1 =
  [ "app_id"; "url"; "username"; "provider"; "mfa"; "skip_verify";
    "timeout"; "aws_urn"; "aws_session_duration"; "aws_profile";
    "subdomain"; "role_arn" ].
Proof. reflexivity. Qed.

Lemma account_pairs_NoDup (ia : IDPAccount) : NoDup (account_pairs ia).*1.
Proof.
  rewrite account_pairs_keys. apply (bool_decide_unpack _). vm_compute. exact I.
Qed.

Lemma writeFrom_get (b : section_body) (ia : IDPAccount) (k v : string) :
  (k, v) ∈ account_pairs ia -> alist_get k (writeFrom b ia) = Some v.
Proof. apply alist_set_all_get, account_pairs_NoDup. Qed.

(** A second write of the same account changes nothing. *)
Lemma writeFrom_idempotent (b : section_body) (ia : IDPAccount) :
  writeFrom (writeFrom b ia) ia = writeFrom b ia.
Proof.
  unfold writeFrom at 1. apply alist_set_all_same.
  intros k v. apply writeFrom_get.
Qed.

(** Reading back what was written gives the account written, whatever the
    section held before and whatever the target held. *)
Lemma readInto_writeFrom (b : section_body) (ia target : IDPAccount) :
  readInto (writeFrom b ia) target = (ia, None).
Proof.
  assert (Hget : forall k v, (k, v) ∈ account_pairs ia ->
                   alist_get k (writeFrom b ia) = Some v)
    by (intros k v; apply writeFrom_get).
  unfold readInto, overlay.
  rewrite (Hget "skip_verify" (fmt_bool (SkipVerify ia)))
    by (unfold account_pairs; set_solver).
  rewrite (Hget "timeout" (fmt_int (Timeout ia)))
    by (unfold account_pairs; set_solver).
  rewrite (Hget "aws_session_duration" (fmt_int (SessionDuration ia)))
    by (unfold account_pairs; set_solver).
  rewrite parse_bool_fmt_bool, !parse_int_fmt_int.
  rewrite (Hget "app_id" (AppID ia)) by (unfold account_pairs; set_solver).
  rewrite (Hget "url" (URL ia)) by (unfold account_pairs; set_solver).
  rewrite (Hget "username" (Username ia))
    by (unfold account_pairs; set_solver).
  rewrite (Hget "provider" (Provider ia))
    by (unfold account_pairs; set_solver).
  rewrite (Hget "mfa" (MFA ia)) by (unfold account_pairs; set_solver).
  rewrite (Hget "aws_urn" (AmazonWebservicesURN ia))
    by (unfold account_pairs; set_solver).
  rewrite (Hget "aws_profile" (Profile ia))
    by (unfold account_pairs; set_solver).
  rewrite (Hget "subdomain" (Subdomain ia))
    by (unfold account_pairs; set_solver).
  rewrite (Hget "role_arn" (RoleARN ia))
    by (unfold account_pairs; set_solver).
  destruct ia; reflexivity.
Qed.

(** An empty section overlays nothing. *)
Lemma readInto_empty (target : IDPAccount) : readInto [] target = (target, None).
Proof. destruct target; reflexivity. Qed.

(** ** Documents *)

Lemma getOrCreateSection_get (d : document) (name : string) :
  alist_get name (getOrCreateSection d name).1
  = Some (default [] (alist_get name d)).
Proof.
  unfold getOrCreateSection. destruct (alist_get name d) as [b|] eqn:E; cbn.
  - exact E.
  - rewrite alist_get_snoc, E, String.eqb_refl. reflexivity.
Qed.

Lemma getOrCreateSection_get_other (d : document) (name name' : string) :
  name <> name' ->
  alist_get name' (getOrCreateSection d name).1 = alist_get name' d.
Proof.
  intros Hne. unfold getOrCreateSection.
  destruct (alist_get name d) as [b|]; cbn; [reflexivity|].
  rewrite alist_get_snoc. destruct (alist_get name' d); [reflexivity|].
  apply String.eqb_neq in Hne. rewrite String.eqb_sym, Hne. reflexivity.
Qed.

Lemma getOrCreateSection_present (d : document) (name : string) :
  alist_get name d <> None -> getOrCreateSection d name = (d, name).
Proof.
  unfold getOrCreateSection. destruct (alist_get name d); congruence.
Qed.

Lemma getOrCreateSection_count (d : document) (name : string) :
  alist_count name (getOrCreateSection d name).1
  = Nat.max 1 (alist_count name d).
Proof.
  unfold getOrCreateSection. destruct (alist_get name d) as [b|] eqn:E; cbn.
  - assert (alist_count name d <> 0)
      by (rewrite <- alist_get_None_count; congruence).
    lia.
  - apply alist_get_None_count in E.
    rewrite alist_count_snoc, E, String.eqb_refl. reflexivity.
Qed.

Lemma saved_document_get (d : document) (name : string) (ia : IDPAccount) :
  alist_get name (saved_document d name ia)
  = Some (writeFrom (default [] (alist_get name d)) ia).
Proof. apply alist_get_set_eq. Qed.

Lemma saved_document_get_other (d : document) (name name' : string)
    (ia : IDPAccount) :
  name <> name' -> alist_get name' (saved_document d name ia) = alist_get name' d.
Proof.
  intros Hne. unfold saved_document.
  rewrite alist_get_set_ne by exact Hne.
  apply getOrCreateSection_get_other, Hne.
Qed.

Lemma saved_document_count (d : document) (name : string) (ia : IDPAccount) :
  alist_count name (saved_document d name ia) = Nat.max 1 (alist_count name d).
Proof.
  unfold saved_document. rewrite alist_count_set_present.
  - apply getOrCreateSection_count.
  - rewrite getOrCreateSection_get. discriminate.
Qed.

(** Saving the same account again writes the same document. *)
Lemma saved_document_idempotent (d : document) (name : string)
    (ia : IDPAccount) :
  saved_document (saved_document d name ia) name ia = saved_document d name ia.
Proof.
  unfold saved_document at 1.
  rewrite getOrCreateSection_present
    by (rewrite saved_document_get; discriminate).
  rewrite saved_document_get. cbn [from_option id fst].
  rewrite writeFrom_idempotent.
  apply alist_set_same, saved_document_get.
Qed.

(** ** The package on the store of the specification *)

Section SpecModelFacts.
Context (parse_url : string -> option error) (home : result string).
Local Abbreviation M := (spec_model parse_url home).
Implicit Types (cm : ConfigManager) (name : string) (ia : IDPAccount)
  (s : fs_state).

(** [SaveIDPAccount] on this store, step by step. *)
Lemma SaveIDPAccount_unfold cm name ia s :
  @SaveIDPAccount M cm name ia s =
  match @Validate M ia with
  | Some err => (s, Some (errors_Wrap err "Account validation failed"))
  | None =>
    match load_document true (configPath cm) s with
    | Err err =>
      (s, Some (errors_Wrap err "Unable to load configuration file"))
    | Ok d =>
      if decide (configPath cm ∈ unwritable s)
      then (s, Some (errors_Wrap (lib_error "unable to write file")
                       "Failed to save configuration file"))
      else (mkFs (<[configPath cm := Parsed (saved_document d name ia)]>
                    (files s)) (unwritable s), None)
    end
  end.
Proof.
  unfold SaveIDPAccount. destruct (Validate ia); [reflexivity|].
  cbn [ini_LoadSources spec_model].
  destruct (load_document true (configPath cm) s) as [d|e]; [|reflexivity].
  cbn [File_NewSection Section_ReflectFrom File_SaveTo spec_model].
  pose proof (getOrCreateSection_get d name) as Hg.
  unfold saved_document.
  destruct (getOrCreateSection d name) as [d1 sec] eqn:E.
  assert (sec = name) as ->.
  { unfold getOrCreateSection in E.
    destruct (alist_get name d); injection E; auto. }
  cbn [fst] in *. rewrite Hg. unfold saveTo.
  destruct (decide (configPath cm ∈ unwritable s)); reflexivity.
Qed.

(** [LoadIDPAccount] on this store. *)
Lemma LoadIDPAccount_unfold cm name s :
  @LoadIDPAccount M cm name s =
  match load_document true (configPath cm) s with
  | Err err => Err (errors_Wrap err "Unable to load configuration file")
  | Ok d =>
    match readInto (default [] (alist_get name d)) NewIDPAccount with
    | (_, Some err) => Err (errors_Wrap err "Unable to map account")
    | (account, None) => Ok account
    end
  end.
Proof.
  unfold LoadIDPAccount, readAccount. cbn [ini_LoadSources spec_model].
  destruct (load_document true (configPath cm) s) as [d|e]; [|reflexivity].
  cbn [File_Section Section_MapTo spec_model].
  pose proof (getOrCreateSection_get d name) as Hg.
  destruct (getOrCreateSection d name) as [d1 sec] eqn:E.
  assert (sec = name) as ->.
  { unfold getOrCreateSection in E.
    destruct (alist_get name d); injection E; auto. }
  cbn [fst] in Hg. rewrite Hg. reflexivity.
Qed.

(** A save that returns [nil] loaded a document and wrote it back with the
    account in its section. *)
Lemma SaveIDPAccount_nil_inv cm name ia s :
  (@SaveIDPAccount M cm name ia s).2 = None ->
  exists d : document,
    load_document true (configPath cm) s = Ok d
    /\ (@SaveIDPAccount M cm name ia s).1
       = mkFs (<[configPath cm := Parsed (saved_document d name ia)]>
                 (files s)) (unwritable s).
Proof.
  rewrite SaveIDPAccount_unfold.
  destruct (Validate ia); [discriminate|].
  destruct (load_document true (configPath cm) s) as [d|e]; [|discriminate].
  destruct (decide (configPath cm ∈ unwritable s)); [discriminate|].
  intros _. exists d. split; reflexivity.
Qed.

(** A save that returns an error leaves the file system as it was. *)
Lemma SaveIDPAccount_error_inv cm name ia s :
  (@SaveIDPAccount M cm name ia s).2 <> None ->
  (@SaveIDPAccount M cm name ia s).1 = s.
Proof.
  rewrite SaveIDPAccount_unfold.
  destruct (Validate ia); [reflexivity|].
  destruct (load_document true (configPath cm) s) as [d|e]; [|reflexivity].
  destruct (decide (configPath cm ∈ unwritable s)); [reflexivity|].
  cbn. congruence.
Qed.

(** A valid account is saved whenever the file can be loaded and
    written. *)
Lemma SaveIDPAccount_succeeds cm name ia s (d : document) :
  @Validate M ia = None ->
  load_document true (configPath cm) s = Ok d ->
  configPath cm ∉ unwritable s ->
  (@SaveIDPAccount M cm name ia s).2 = None.
Proof.
  intros Hv Hl Hw. rewrite SaveIDPAccount_unfold, Hv, Hl.
  destruct (decide (configPath cm ∈ unwritable s)); [contradiction|].
  reflexivity.
Qed.

Lemma load_document_written (d : document) (path : string) s :
  load_document true path (mkFs (<[path := Parsed d]> (files s)) (unwritable s))
  = Ok d.
Proof.
  unfold load_document. cbn [files]. rewrite lookup_insert_eq. reflexivity.
Qed.

End SpecModelFacts.

(** ** Save, then load *)

(** What a load finds after a save that returned [nil]. *)
Lemma Load_after_Save (parse_url : string -> option error)
    (home : result string) (cm : ConfigManager) (name : string)
    (ia : IDPAccount) (s : fs_state) :
  (@SaveIDPAccount (spec_model parse_url home) cm name ia s).2 = None ->
  @LoadIDPAccount (spec_model parse_url home) cm name
    (@SaveIDPAccount (spec_model parse_url home) cm name ia s).1 = Ok ia.
Proof.
  intros Hs. apply SaveIDPAccount_nil_inv in Hs as (d & _ & ->).
  rewrite LoadIDPAccount_unfold, load_document_written, saved_document_get.
  cbn [from_option id]. rewrite readInto_writeFrom. reflexivity.
Qed.

(** C1. On the store of the specification: for every account that passes
    [Validate] and every name, when [SaveIDPAccount] returns [nil] the
    following [LoadIDPAccount] of that name returns the account saved,
    equal in every field; and the save does return [nil] whenever the file
    is missing or parses and its path can be written. *)
Theorem Save_Load_roundtrip :
  forall (parse_url : string -> option error) (home : result string)
         (cm : ConfigManager) (name : string) (P : IDPAccount)
         (s : fs_state),
    @Validate (spec_model parse_url home) P = None ->
    ((@SaveIDPAccount (spec_model parse_url home) cm name P s).2 = None ->
     @LoadIDPAccount (spec_model parse_url home) cm name
       (@SaveIDPAccount (spec_model parse_url home) cm name P s).1 = Ok P)
    /\ (files s !! configPath cm <> Some Unparseable ->
        configPath cm ∉ unwritable s ->
        (@SaveIDPAccount (spec_model parse_url home) cm name P s).2 = None).
Proof.
  intros parse_url home cm name P s Hv. split.
  - apply Load_after_Save.
  - intros Hf Hw.
    destruct (load_document true (configPath cm) s) as [d|e] eqn:Hl.
    + exact (SaveIDPAccount_succeeds _ _ cm name P s d Hv Hl Hw).
    + unfold load_document in Hl.
      destruct (files s !! configPath cm) as [[d|]|]; congruence.
Qed.

Lemma Save_Load_roundtrip_witness :
  (@SaveIDPAccount example_model example_cm "test" example_account
     empty_fs).2 = None
  /\ @LoadIDPAccount example_model example_cm "test"
       (@SaveIDPAccount example_model example_cm "test" example_account
          empty_fs).1 = Ok example_account.
Proof.
  assert (Hv : @Validate example_model example_account = None)
    by reflexivity.
  destruct (Save_Load_roundtrip parse_no_control (Ok "/home/alice")
              example_cm "test" example_account empty_fs Hv) as [Hload Hsave].
  assert (Hs : (@SaveIDPAccount example_model example_cm "test"
                  example_account empty_fs).2 = None).
  { apply Hsave.
    - vm_compute. discriminate.
    - unfold empty_fs. cbn [unwritable]. apply not_elem_of_empty. }
  split; [exact Hs|exact (Hload Hs)].
Defined.

(** ** Saving twice *)

(** C8. On the store of the specification: when a valid account has been
    saved, saving it again under the same name returns [nil] and leaves the
    file system as the first save left it; the load that follows returns
    the account.  The document holds as many sections of that name after
    the second save as after the first, and exactly one when it held at
    most one before the saves. *)
Theorem Save_twice_idempotent :
  forall (parse_url : string -> option error) (home : result string)
         (cm : ConfigManager) (name : string) (P : IDPAccount)
         (s : fs_state),
    @Validate (spec_model parse_url home) P = None ->
    (@SaveIDPAccount (spec_model parse_url home) cm name P s).2 = None ->
    let s1 := (@SaveIDPAccount (spec_model parse_url home) cm name P s).1 in
    let s2 := (@SaveIDPAccount (spec_model parse_url home) cm name P s1).1 in
    (@SaveIDPAccount (spec_model parse_url home) cm name P s1).2 = None
    /\ s2 = s1
    /\ @LoadIDPAccount (spec_model parse_url home) cm name s2 = Ok P
    /\ sections_named name (configPath cm) s2
       = sections_named name (configPath cm) s1
    /\ (sections_named name (configPath cm) s <= 1 ->
        sections_named name (configPath cm) s2 = 1).
Proof.
  intros parse_url home cm name P s Hv Hs s1 s2.
  pose proof (Load_after_Save _ _ _ _ _ _ Hs) as Hload. fold s1 in Hload.
  destruct (SaveIDPAccount_nil_inv _ _ _ _ _ _ Hs) as (d & Hd & Hs1).
  fold s1 in Hs1.
  assert (Hw : configPath cm ∉ unwritable s).
  { revert Hs. rewrite SaveIDPAccount_unfold, Hv, Hd.
    destruct (decide (configPath cm ∈ unwritable s)); [discriminate|auto]. }
  assert (Hsave2 :
    @SaveIDPAccount (spec_model parse_url home) cm name P s1 = (s1, None)).
  { rewrite SaveIDPAccount_unfold, Hv, Hs1, load_document_written.
    cbn [unwritable files].
    destruct (decide (configPath cm ∈ unwritable s)); [contradiction|].
    rewrite saved_document_idempotent, insert_insert_eq. reflexivity. }
  assert (Hs2 : s2 = s1) by (subst s2; rewrite Hsave2; reflexivity).
  split; [rewrite Hsave2; reflexivity|].
  split; [exact Hs2|].
  split; [rewrite Hs2; exact Hload|].
  split; [rewrite Hs2; reflexivity|].
  intros Hcount. rewrite Hs2, Hs1. unfold sections_named in *.
  cbn [files]. rewrite lookup_insert_eq, saved_document_count.
  unfold load_document in Hd.
  destruct (files s !! configPath cm) as [[d0|]|]; try discriminate.
  - injection Hd as ->. lia.
  - injection Hd as <-. reflexivity.
Qed.

Lemma Save_twice_idempotent_witness :
  @LoadIDPAccount example_model example_cm "test"
    (@SaveIDPAccount example_model example_cm "test" example_account
       (@SaveIDPAccount example_model example_cm "test" example_account
          empty_fs).1).1 = Ok example_account.
Proof.
  refine (proj1 (proj2 (proj2
    (Save_twice_idempotent parse_no_control (Ok "/home/alice") example_cm
       "test" example_account empty_fs _ _)))).
  - reflexivity.
  - vm_compute. reflexivity.
Defined.

(** ** Names that were never saved *)

Section NeverSaved.
Context (parse_url : string -> option error) (home : result string).
Local Abbreviation M := (spec_model parse_url home).
Implicit Types (cm : ConfigManager) (name : string) (ia : IDPAccount)
  (s : fs_state).

(** The document loaded from a state without the section has no such
    section. *)
Lemma section_absent_loaded name (path : string) s (d : document) :
  section_absent name path s ->
  load_document true path s = Ok d ->
  alist_get name d = None.
Proof.
  unfold section_absent, load_document.
  destruct (files s !! path) as [[d0|]|]; intros Ha [= <-];
    [exact Ha|reflexivity].
Qed.

Lemma section_absent_loads name (path : string) s :
  section_absent name path s ->
  exists d : document, load_document true path s = Ok d.
Proof.
  unfold section_absent, load_document.
  destruct (files s !! path) as [[d0|]|]; intros Ha;
    [eexists; reflexivity|contradiction|eexists; reflexivity].
Qed.

Lemma Load_absent cm name s :
  section_absent name (configPath cm) s ->
  @LoadIDPAccount M cm name s = Ok NewIDPAccount.
Proof.
  intros Ha. destruct (section_absent_loads _ _ _ Ha) as [d Hd].
  rewrite LoadIDPAccount_unfold, Hd,
    (section_absent_loaded _ _ _ _ Ha Hd).
  cbn [from_option id]. rewrite readInto_empty. reflexivity.
Qed.

(** Saving under another name keeps the section absent. *)
Lemma Save_other_keeps_absent cm name name' ia s :
  name' <> name ->
  section_absent name (configPath cm) s ->
  section_absent name (configPath cm) (@SaveIDPAccount M cm name' ia s).1.
Proof.
  intros Hne Ha.
  destruct (@SaveIDPAccount M cm name' ia s).2 as [e|] eqn:E.
  - rewrite SaveIDPAccount_error_inv by congruence. exact Ha.
  - apply SaveIDPAccount_nil_inv in E as (d & Hd & ->).
    unfold section_absent. cbn [files]. rewrite lookup_insert_eq.
    rewrite saved_document_get_other by exact Hne.
    exact (section_absent_loaded _ _ _ _ Ha Hd).
Qed.

Lemma run_saves_keeps_absent cm name (saves : list (string * IDPAccount)) s :
  Forall (fun nv => nv.1 <> name) saves ->
  section_absent name (configPath cm) s ->
  section_absent name (configPath cm) (@run_saves M cm saves s).
Proof.
  intros Hall. revert s.
  induction Hall as [|[name' ia] saves Hne _ IH]; intros s Ha; [exact Ha|].
  apply IH. apply Save_other_keeps_absent; assumption.
Qed.

(** With the existence check, such a name is reported as not found. *)
Lemma LoadVerify_absent cm name s :
  section_absent name (configPath cm) s ->
  @LoadVerifyIDPAccount M cm name s = Err ErrIdpAccountNotFound.
Proof.
  intros Ha. pose proof (LoadVerify_cases (C := M) cm name s) as Hc.
  rewrite (Load_absent _ _ _ Ha) in Hc. exact Hc.
Qed.

End NeverSaved.

(** C5. On the store of the specification: when the section of a name is
    absent (the file is missing, or it is a document without that section)
    and any number of saves under other names follow, [LoadIDPAccount] of
    the name does not fail and returns an account equal to the default one:
    awsURN, sessionDuration and profile at their defaults, the rest empty,
    false or 0. *)
Theorem Load_never_saved :
  forall (parse_url : string -> option error) (home : result string)
         (cm : ConfigManager) (name : string)
         (saves : list (string * IDPAccount)) (s : fs_state),
    section_absent name (configPath cm) s ->
    Forall (fun nv => nv.1 <> name) saves ->
    @LoadIDPAccount (spec_model parse_url home) cm name
      (@run_saves (spec_model parse_url home) cm saves s)
    = Ok NewIDPAccount.
Proof.
  intros parse_url home cm name saves s Ha Hall.
  apply Load_absent, run_saves_keeps_absent; assumption.
Qed.

Lemma Load_never_saved_witness :
  @LoadIDPAccount example_model example_cm "other"
    (@run_saves example_model example_cm [("test", example_account)] empty_fs)
  = Ok NewIDPAccount.
Proof.
  apply (Load_never_saved parse_no_control (Ok "/home/alice") example_cm
           "other" [("test", example_account)] empty_fs).
  - vm_compute. exact I.
  - apply Forall_cons. split; [cbn; discriminate|apply Forall_nil_2].
Defined.

(** ** Valid accounts are found *)

(** C10. An account that passes [Validate] differs from the default one,
    whose provider is empty; so, on the store of the specification, after a
    save of a valid account that returned [nil], [LoadVerifyIDPAccount] of
    that name does not return the not-found value: it returns the
    account. *)
Theorem Validated_account_is_found :
  (forall (C : Collaborators) (P : IDPAccount),
      Validate P = None -> P <> NewIDPAccount)
  /\ (forall (parse_url : string -> option error) (home : result string)
             (cm : ConfigManager) (name : string) (P : IDPAccount)
             (s : fs_state),
      @Validate (spec_model parse_url home) P = None ->
      (@SaveIDPAccount (spec_model parse_url home) cm name P s).2 = None ->
      @LoadVerifyIDPAccount (spec_model parse_url home) cm name
        (@SaveIDPAccount (spec_model parse_url home) cm name P s).1 = Ok P).
Proof.
  split.
  - intros C P. apply Validate_None_not_default.
  - intros parse_url home cm name P s Hv Hs.
    pose proof (LoadVerify_cases (C := spec_model parse_url home) cm name
                  (@SaveIDPAccount (spec_model parse_url home) cm name P s).1)
      as Hc.
    rewrite (Load_after_Save _ _ _ _ _ _ Hs) in Hc. rewrite Hc.
    apply (Validate_None_not_default (C := spec_model parse_url home)) in Hv.
    apply DeepEqual_false in Hv. rewrite Hv. reflexivity.
Qed.

Lemma Validated_account_is_found_witness :
  example_account <> NewIDPAccount
  /\ @LoadVerifyIDPAccount example_model example_cm "test" example_saved_fs
     = Ok example_account.
Proof.
  split.
  - apply (proj1 Validated_account_is_found example_model example_account).
    reflexivity.
  - apply (proj2 Validated_account_is_found parse_no_control
             (Ok "/home/alice") example_cm "test" example_account empty_fs).
    + reflexivity.
    + vm_compute. reflexivity.
Defined.

Lemma LoadVerify_not_found_iff_witness :
  @LoadVerifyIDPAccount example_model example_cm "test" empty_fs
  = Err ErrIdpAccountNotFound
  /\ @LoadVerifyIDPAccount example_model example_cm "test" example_saved_fs
     = Ok example_account.
Proof.
  split.
  - apply (proj1 (LoadVerify_not_found_iff example_model example_cm "test"
                    empty_fs)).
    vm_compute. reflexivity.
  - apply (proj1 (proj2 (LoadVerify_not_found_iff example_model example_cm
                           "test" example_saved_fs))).
    + vm_compute. reflexivity.
    + discriminate.
Defined.

(** ** Evaluations *)

Example fmt_int_values :
  fmt_int 0 = "0" /\ fmt_int 3600 = "3600" /\ fmt_int (-15) = "-15".
Proof. repeat split. Qed.

Example parse_int_values :
  parse_int "3600" = Some 3600%Z /\ parse_int "-15" = Some (-15)%Z
  /\ parse_int "1h" = None /\ parse_int "" = None.
Proof. repeat split. Qed.

Example IDPAccount_String_example :
  IDPAccount_String example_onelogin =
  "account {
  AppID: 
  Subdomain: acme
  URL: https://acme.onelogin.com/trust
  Username: alice
  Provider: OneLogin
  MFA: Auto
  SkipVerify: false
  AmazonWebservicesURN: urn:amazon:webservices
  SessionDuration: 3600
  Profile: saml
  RoleARN: 
}".
Proof. vm_compute. reflexivity. Qed.

Example Validate_examples :
  @Validate example_model example_account = None
  /\ @Validate example_model example_no_mfa
     = Some (errors_New "MFA empty in idp account")
  /\ @Validate example_model NewIDPAccount
     = Some (errors_New "URL empty in idp account")
  /\ @Validate example_model example_onelogin
     = Some (errors_New "app ID empty in idp account").
Proof. repeat split. Qed.

(** The file written by the first save on an empty file system. *)
Example saved_file_example :
  files example_saved_fs !! "/home/alice/.saml2aws" =
  Some (Parsed
    [ ("test",
       [ ("app_id", ""); ("url", "https://x.example/sso"); ("username", "");
         ("provider", "Ping"); ("mfa", "Auto"); ("skip_verify", "false");
         ("timeout", "0"); ("aws_urn", "urn:amazon:webservices");
         ("aws_session_duration", "3600"); ("aws_profile", "saml");
         ("subdomain", ""); ("role_arn", "") ]) ]).
Proof. vm_compute. reflexivity. Qed.

(** Keys outside the table are ignored and a stored value overlays the
    default. *)
Example readInto_example :
  readInto [("color", "blue"); ("aws_profile", "work"); ("timeout", "30")]
    NewIDPAccount
  = ({| AppID := ""; URL := ""; Username := ""; Provider := ""; MFA := "";
        SkipVerify := false; Timeout := 30;
        AmazonWebservicesURN := "urn:amazon:webservices";
        SessionDuration := 3600; Profile := "work"; Subdomain := "";
        RoleARN := "" |}, None).
Proof. reflexivity. Qed.

(** A save that does not validate leaves the saved file as it is. *)
Example invalid_save_example :
  @SaveIDPAccount example_model example_cm "test" example_no_mfa
    example_saved_fs
  = (example_saved_fs,
     Some (errors_Wrap (errors_New "MFA empty in idp account")
             "Account validation failed")).
Proof. reflexivity. Qed.

(* ================================================================== *)
(** * Further properties of the package *)

(** ** Validation *)

(** X1. An account passes [Validate] exactly when its url is not empty and
    parses, its provider, mfa and profile are not empty and, for the
    provider "OneLogin", its app ID and subdomain are not empty. *)
Theorem Validate_None_iff :
  forall (C : Collaborators) (ia : IDPAccount),
    Validate ia = None <->
    URL ia <> "" /\ url_Parse (URL ia) = None /\ Provider ia <> ""
    /\ MFA ia <> "" /\ Profile ia <> ""
    /\ (Provider ia = "OneLogin" -> AppID ia <> "" /\ Subdomain ia <> "").
Proof.
  intros C ia. split; [apply Validate_None_inv|].
  intros (HU & Hp & HP & HM & HPr & HO).
  unfold Validate, Validate_OneLogin.
  apply String.eqb_neq in HU, HP, HM, HPr. rewrite HU, Hp, HP, HM, HPr.
  destruct (String.eqb_spec (Provider ia) "OneLogin") as [E|_];
    [|reflexivity].
  destruct (HO E) as [HA HS]. apply String.eqb_neq in HA, HS.
  rewrite HA, HS. reflexivity.
Qed.

Lemma Validate_None_iff_witness :
  @Validate example_model example_account = None.
Proof.
  apply (proj2 (Validate_None_iff example_model example_account)).
  repeat split; discriminate.
Defined.

(** X2. [Validate] reads the provider, the app ID, the subdomain, the url,
    the mfa and the profile only: two accounts that agree on these get the
    same answer, whatever their username, skipVerify, timeout, awsURN,
    sessionDuration and roleARN. *)
Theorem Validate_reads_six_fields :
  forall (C : Collaborators) (ia ib : IDPAccount),
    same_validated_fields ia ib -> Validate ia = Validate ib.
Proof.
  intros C ia ib (HP & HA & HS & HU & HM & HPr).
  unfold Validate, Validate_OneLogin.
  rewrite HP, HA, HS, HU, HM, HPr. reflexivity.
Qed.

Lemma Validate_reads_six_fields_witness :
  @Validate example_model example_timeout
  = @Validate example_model NewIDPAccount.
Proof.
  apply (Validate_reads_six_fields example_model example_timeout
           NewIDPAccount).
  repeat split.
Defined.

(** Every failure of [Validate] is a fresh [errors.New] value. *)
Lemma Validate_Some_New `{C : Collaborators} (ia : IDPAccount) (e : error) :
  Validate ia = Some e -> exists m : string, e = errors_New m.
Proof.
  rewrite Validate_refines_spec. unfold Validate_spec.
  destruct (first_violation _ ia) as [m|]; [|discriminate].
  intros [= <-]. exists m. reflexivity.
Qed.

(** ** Outcomes of a save *)

Section SaveOutcomes.
Context `{C : Collaborators}.

(** The outcomes of [SaveIDPAccount], one per step that can return. *)
Lemma SaveIDPAccount_cases (cm : ConfigManager) (name : string)
    (account : IDPAccount) (s : fs) :
  (exists e, Validate account = Some e
     /\ SaveIDPAccount cm name account s
        = (s, Some (errors_Wrap e "Account validation failed")))
  \/ (Validate account = None
      /\ exists e, ini_LoadSources true (configPath cm) s = Err e
         /\ SaveIDPAccount cm name account s
            = (s, Some (errors_Wrap e "Unable to load configuration file")))
  \/ (Validate account = None
      /\ exists cfg, ini_LoadSources true (configPath cm) s = Ok cfg
         /\ ((exists e, SaveIDPAccount cm name account s
                = (s, Some (errors_Wrap e
                     "Unable to build a new section in configuration file")))
             \/ (exists e, SaveIDPAccount cm name account s
                   = (s, Some (errors_Wrap e
                        "Unable to save account to configuration file")))
             \/ (exists s' e, SaveIDPAccount cm name account s
                   = (s', Some (errors_Wrap e
                         "Failed to save configuration file")))
             \/ (exists s', SaveIDPAccount cm name account s = (s', None)))).
Proof.
  unfold SaveIDPAccount.
  destruct (Validate account) as [e|]; [left; eauto|right].
  destruct (ini_LoadSources true (configPath cm) s) as [cfg|e];
    [right|left; eauto].
  split; [reflexivity|]. exists cfg. split; [reflexivity|].
  destruct (File_NewSection cfg name) as [[cfg1 sec]|e]; [|left; eauto].
  destruct (Section_ReflectFrom cfg1 sec account) as [cfg2 [e|]];
    [right; left; eauto|].
  destruct (File_SaveTo cfg2 (configPath cm) s) as [s' [e|]];
    [right; right; left; eauto|right; right; right; eauto].
Qed.

End SaveOutcomes.

(** X3. Whatever the store does, a save that returns [nil] was a save of an
    account that passes [Validate], and the configuration file could be
    loaded. *)
Theorem SaveIDPAccount_nil_validated :
  forall (C : Collaborators) (cm : ConfigManager) (name : string)
         (account : IDPAccount) (s : fs),
    (SaveIDPAccount cm name account s).2 = None ->
    Validate account = None
    /\ exists cfg : ini_File,
        ini_LoadSources true (configPath cm) s = Ok cfg.
Proof.
  intros C cm name account s H.
  destruct (SaveIDPAccount_cases cm name account s)
    as [(e & _ & E)|[(_ & e & _ & E)|(Hv & cfg & Hl & Hrest)]].
  - rewrite E in H. discriminate.
  - rewrite E in H. discriminate.
  - split; [exact Hv|]. exists cfg. exact Hl.
Qed.

Lemma SaveIDPAccount_nil_validated_witness :
  @Validate example_model example_account = None
  /\ exists cfg : document,
      load_document true "/home/alice/.saml2aws" empty_fs = Ok cfg.
Proof.
  apply (SaveIDPAccount_nil_validated example_model example_cm "test"
           example_account empty_fs).
  vm_compute. reflexivity.
Defined.

(** X4. Whatever the store does, an error of a save is a wrapped error whose
    message is one of the five of [SaveIDPAccount]; unless that message is
    "Failed to save configuration file", the file system is the one the save
    was called on. *)
Theorem SaveIDPAccount_error_wrapped :
  forall (C : Collaborators) (cm : ConfigManager) (name : string)
         (account : IDPAccount) (s : fs) (err : error),
    (SaveIDPAccount cm name account s).2 = Some err ->
    exists (e : error) (m : string),
      err = errors_Wrap e m
      /\ m ∈ SaveIDPAccount_messages
      /\ (m <> "Failed to save configuration file" ->
          (SaveIDPAccount cm name account s).1 = s).
Proof.
  intros C cm name account s err H.
  unfold SaveIDPAccount_messages.
  destruct (SaveIDPAccount_cases cm name account s)
    as [(e & _ & E)|[(_ & e & _ & E)|(_ & cfg & _ &
          [(e & E)|[(e & E)|[(s' & e & E)|(s' & E)]]])]];
    rewrite E in H |- *; cbn [fst snd] in *; try discriminate;
    injection H as <-; eexists _, _;
    (split; [reflexivity|split; [set_solver|congruence]]).
Qed.

Lemma SaveIDPAccount_error_wrapped_witness :
  exists (e : error) (m : string),
    errors_Wrap (errors_New "MFA empty in idp account")
      "Account validation failed" = errors_Wrap e m
    /\ m ∈ SaveIDPAccount_messages
    /\ (m <> "Failed to save configuration file" ->
        (@SaveIDPAccount example_model example_cm "test" example_no_mfa
           example_saved_fs).1 = example_saved_fs).
Proof.
  apply (SaveIDPAccount_error_wrapped example_model example_cm "test"
           example_no_mfa example_saved_fs).
  reflexivity.
Defined.

(** ** Where the not-found value can come from *)

(** X5. Whatever the collaborators do, the not-found value is returned
    neither by [Validate], nor by [SaveIDPAccount], nor by
    [LoadIDPAccount]: their errors are fresh or wrapped, so that
    [IsErrIdpAccountNotFound] is false on each of them. *)
Theorem not_found_only_from_LoadVerify :
  forall (C : Collaborators) (cm : ConfigManager) (name : string)
         (account : IDPAccount) (s : fs),
    IsErrIdpAccountNotFound (Validate account) = false
    /\ IsErrIdpAccountNotFound (SaveIDPAccount cm name account s).2 = false
    /\ (forall e : error,
         LoadIDPAccount cm name s = Err e ->
         IsErrIdpAccountNotFound (Some e) = false).
Proof.
  intros C cm name account s. split; [|split].
  - destruct (Validate account) as [e|] eqn:E; [|reflexivity].
    apply Validate_Some_New in E as [m ->]. reflexivity.
  - destruct (SaveIDPAccount_cases cm name account s)
      as [(e & _ & E)|[(_ & e & _ & E)|(_ & cfg & _ &
            [(e & E)|[(e & E)|[(s' & e & E)|(s' & E)]]])]];
      rewrite E; reflexivity.
  - intros e. unfold LoadIDPAccount, readAccount.
    destruct (ini_LoadSources true (configPath cm) s) as [cfg|e'].
    + destruct (File_Section cfg name) as [cfg1 sec].
      destruct (Section_MapTo cfg1 sec NewIDPAccount) as [a [e'|]];
        intros [= <-]. reflexivity.
    + intros [= <-]. reflexivity.
Qed.

Lemma not_found_only_from_LoadVerify_witness :
  IsErrIdpAccountNotFound
    (Some (errors_Wrap (lib_error "unable to parse file")
             "Unable to load configuration file")) = false.
Proof.
  apply (proj2 (proj2 (not_found_only_from_LoadVerify example_model
                         example_cm "test" example_account example_bad_fs))).
  vm_compute. reflexivity.
Defined.

(** ** Loading with the existence check, against the plain load *)

(** X6. Whatever the store does, an account returned by
    [LoadVerifyIDPAccount] is the one [LoadIDPAccount] returns, and it is
    not the default account. *)
Theorem LoadVerify_Ok_inv :
  forall (C : Collaborators) (cm : ConfigManager) (name : string) (s : fs)
         (account : IDPAccount),
    LoadVerifyIDPAccount cm name s = Ok account ->
    LoadIDPAccount cm name s = Ok account /\ account <> NewIDPAccount.
Proof.
  intros C cm name s account H.
  pose proof (LoadVerify_cases cm name s) as Hc.
  destruct (LoadIDPAccount cm name s) as [a|e].
  - rewrite Hc in H. destruct (DeepEqual a NewIDPAccount) eqn:Hd;
      [discriminate|].
    injection H as ->. split; [reflexivity|].
    apply DeepEqual_false. exact Hd.
  - destruct Hc as (e' & m & Hc). rewrite Hc in H. discriminate.
Qed.

Lemma LoadVerify_Ok_inv_witness :
  @LoadIDPAccount example_model example_cm "test" example_saved_fs
  = Ok example_account
  /\ example_account <> NewIDPAccount.
Proof.
  apply (LoadVerify_Ok_inv example_model example_cm "test" example_saved_fs
           example_account).
  vm_compute. reflexivity.
Defined.

(** X7. Whatever the store does, when [LoadIDPAccount] fails so does
    [LoadVerifyIDPAccount]: with the same error when the file could not be
    loaded, and with the mapping error wrapped once more, as "Unable to
    read idp account", when the section could not be mapped. *)
Theorem LoadVerify_error_of_Load :
  forall (C : Collaborators) (cm : ConfigManager) (name : string) (s : fs)
         (err : error),
    LoadIDPAccount cm name s = Err err ->
    (exists e : error,
        err = errors_Wrap e "Unable to load configuration file"
        /\ LoadVerifyIDPAccount cm name s = Err err)
    \/ (exists e : error,
        err = errors_Wrap e "Unable to map account"
        /\ LoadVerifyIDPAccount cm name s
           = Err (errors_Wrap err "Unable to read idp account")).
Proof.
  intros C cm name s err. unfold LoadIDPAccount, LoadVerifyIDPAccount.
  destruct (ini_LoadSources true (configPath cm) s) as [cfg|e].
  - unfold readAccount. destruct (File_Section cfg name) as [cfg1 sec].
    destruct (Section_MapTo cfg1 sec NewIDPAccount) as [a [e|]];
      intros [= <-].
    right. exists e. split; reflexivity.
  - intros [= <-]. left. exists e. split; reflexivity.
Qed.

Lemma LoadVerify_error_of_Load_witness :
  @LoadVerifyIDPAccount example_model example_cm "test" example_bad_fs
  = Err (errors_Wrap (lib_error "unable to parse file")
           "Unable to load configuration file").
Proof.
  destruct (LoadVerify_error_of_Load example_model example_cm "test"
              example_bad_fs
              (errors_Wrap (lib_error "unable to parse file")
                 "Unable to load configuration file"))
    as [(e & _ & H)|(e & He & _)].
  - vm_compute. reflexivity.
  - exact H.
  - discriminate He.
Defined.

(** X8. Whatever the store does, an account that passes [Validate] and that
    [LoadIDPAccount] returns is returned by [LoadVerifyIDPAccount] as well:
    a validated account is never taken for a missing one. *)
Theorem LoadVerify_valid_loaded :
  forall (C : Collaborators) (cm : ConfigManager) (name : string) (s : fs)
         (P : IDPAccount),
    Validate P = None ->
    LoadIDPAccount cm name s = Ok P ->
    LoadVerifyIDPAccount cm name s = Ok P.
Proof.
  intros C cm name s P Hv Hl.
  pose proof (LoadVerify_cases cm name s) as Hc. rewrite Hl in Hc.
  apply Validate_None_not_default, DeepEqual_false in Hv.
  rewrite Hc, Hv. reflexivity.
Qed.

Lemma LoadVerify_valid_loaded_witness :
  @LoadVerifyIDPAccount example_model example_cm "test" example_saved_fs
  = Ok example_account.
Proof.
  apply (LoadVerify_valid_loaded example_model example_cm "test"
           example_saved_fs example_account).
  - reflexivity.
  - vm_compute. reflexivity.
Defined.

(** ** What the rendering tells apart *)

Lemma append_inj_l (l x y : string) : l +:+ x = l +:+ y -> x = y.
Proof.
  induction l as [|c l IH]; [rewrite !append_nil; auto|].
  rewrite !append_cons. intros [= H]. exact (IH H).
Qed.

Lemma nl_cons (r : string) : nl +:+ r = String (ascii_of_nat 10) r.
Proof. reflexivity. Qed.

Lemma single_line_cons (c : ascii) (v : string) :
  single_line (String c v) = true ->
  c <> ascii_of_nat 10 /\ single_line v = true.
Proof.
  cbn [single_line]. intros [Hc Hv]%andb_true_iff. split; [|exact Hv].
  intros ->. rewrite Ascii.eqb_refl in Hc. discriminate.
Qed.

(** Two texts of one line each, both followed by a line break, are equal
    with what follows them as soon as the whole is. *)
Lemma line_cancel (v v' r r' : string) :
  single_line v = true -> single_line v' = true ->
  v +:+ nl +:+ r = v' +:+ nl +:+ r' -> v = v' /\ r = r'.
Proof.
  revert v'. induction v as [|c v IH]; intros [|c' v'] Hv Hv';
    rewrite ?append_nil, ?append_cons, ?nl_cons.
  - intros [= ->]. split; reflexivity.
  - intros [= <- _]. apply single_line_cons in Hv' as [Hc _]. congruence.
  - intros [= -> _]. apply single_line_cons in Hv as [Hc _]. congruence.
  - intros [= <- H]. apply single_line_cons in Hv as [_ Hv].
    apply single_line_cons in Hv' as [_ Hv'].
    destruct (IH v' Hv Hv' H) as [-> ->]. split; reflexivity.
Qed.

Lemma fmt_bool_single_line (b : bool) : single_line (fmt_bool b) = true.
Proof. destruct b; reflexivity. Qed.

Lemma fmt_bool_inj (b b' : bool) : fmt_bool b = fmt_bool b' -> b = b'.
Proof. destruct b, b'; cbn; congruence. Qed.

Lemma string_of_uint_single_line (d : Decimal.uint) :
  single_line (NilEmpty.string_of_uint d) = true.
Proof. induction d; cbn; auto. Qed.

Lemma fmt_int_single_line (z : Z) : single_line (fmt_int z) = true.
Proof.
  unfold fmt_int. destruct z as [|p|p]; cbn; [reflexivity| |];
    destruct (Pos.to_uint p); try reflexivity;
    apply (string_of_uint_single_line (_ _)).
Qed.

Lemma fmt_int_inj (z z' : Z) : fmt_int z = fmt_int z' -> z = z'.
Proof.
  intros H. apply (f_equal parse_int) in H.
  rewrite !parse_int_fmt_int in H. congruence.
Qed.

Ltac strip H := apply append_inj_l in H.
Ltac cut_line H Hv :=
  apply line_cancel in H as [Hv H];
  [|first [assumption|apply fmt_bool_single_line|apply fmt_int_single_line]..].

(** The nine lines after the OneLogin block give back the nine fields. *)
Lemma String_body_inj (ia ib : IDPAccount) :
  single_line_fields ia -> single_line_fields ib ->
  "  URL: " +:+ URL ia
  +:+ nl +:+ "  Username: " +:+ Username ia
  +:+ nl +:+ "  Provider: " +:+ Provider ia
  +:+ nl +:+ "  MFA: " +:+ MFA ia
  +:+ nl +:+ "  SkipVerify: " +:+ fmt_bool (SkipVerify ia)
  +:+ nl +:+ "  AmazonWebservicesURN: " +:+ AmazonWebservicesURN ia
  +:+ nl +:+ "  SessionDuration: " +:+ fmt_int (SessionDuration ia)
  +:+ nl +:+ "  Profile: " +:+ Profile ia
  +:+ nl +:+ "  RoleARN: " +:+ RoleARN ia
  +:+ nl +:+ "}"
  = "  URL: " +:+ URL ib
    +:+ nl +:+ "  Username: " +:+ Username ib
    +:+ nl +:+ "  Provider: " +:+ Provider ib
    +:+ nl +:+ "  MFA: " +:+ MFA ib
    +:+ nl +:+ "  SkipVerify: " +:+ fmt_bool (SkipVerify ib)
    +:+ nl +:+ "  AmazonWebservicesURN: " +:+ AmazonWebservicesURN ib
    +:+ nl +:+ "  SessionDuration: " +:+ fmt_int (SessionDuration ib)
    +:+ nl +:+ "  Profile: " +:+ Profile ib
    +:+ nl +:+ "  RoleARN: " +:+ RoleARN ib
    +:+ nl +:+ "}" ->
  URL ia = URL ib
  /\ Username ia = Username ib
  /\ Provider ia = Provider ib
  /\ MFA ia = MFA ib
  /\ SkipVerify ia = SkipVerify ib
  /\ AmazonWebservicesURN ia = AmazonWebservicesURN ib
  /\ SessionDuration ia = SessionDuration ib
  /\ Profile ia = Profile ib
  /\ RoleARN ia = RoleARN ib.
Proof.
  intros (_ & ? & ? & ? & ? & ? & ? & _ & ?)
         (_ & ? & ? & ? & ? & ? & ? & _ & ?) Heq.
  strip Heq. cut_line Heq HU.
  strip Heq. cut_line Heq HUn.
  strip Heq. cut_line Heq HP.
  strip Heq. cut_line Heq HM.
  strip Heq. cut_line Heq HS. apply fmt_bool_inj in HS.
  strip Heq. cut_line Heq HA.
  strip Heq. cut_line Heq HD. apply fmt_int_inj in HD.
  strip Heq. cut_line Heq HPr.
  strip Heq. cut_line Heq HR.
  repeat split; assumption.
Qed.

(** X9. For accounts whose string fields have no line break, two
    renderings are equal exactly when the accounts agree on the nine
    fields of the format and, for the provider "OneLogin", on the app ID
    and the subdomain.  So the rendering tells such accounts apart by any
    of these fields, and never by the timeout, nor by the app ID or the
    subdomain of another provider. *)
Theorem IDPAccount_String_eq_iff :
  forall ia ib : IDPAccount,
    single_line_fields ia -> single_line_fields ib ->
    (IDPAccount_String ia = IDPAccount_String ib <->
     same_rendered_fields ia ib).
Proof.
  intros ia ib Ha Hb. split.
  - unfold IDPAccount_String. intros Heq.
    destruct (String.eqb_spec (Provider ia) "OneLogin") as [Ea|Ea],
             (String.eqb_spec (Provider ib) "OneLogin") as [Eb|Eb];
      rewrite ?append_assoc, ?append_nil in Heq; strip Heq.
    + pose proof Ha as (? & _ & _ & _ & _ & _ & _ & ? & _).
      pose proof Hb as (? & _ & _ & _ & _ & _ & _ & ? & _).
      strip Heq. strip Heq. cut_line Heq HA.
      strip Heq. cut_line Heq HS.
      apply (String_body_inj ia ib Ha Hb) in Heq.
      destruct Heq as (? & ? & ? & ? & ? & ? & ? & ? & ?).
      repeat split; assumption.
    + strip Heq. rewrite !append_cons in Heq. discriminate Heq.
    + strip Heq. rewrite !append_cons in Heq. discriminate Heq.
    + strip Heq. apply (String_body_inj ia ib Ha Hb) in Heq.
      destruct Heq as (? & ? & ? & ? & ? & ? & ? & ? & ?).
      repeat split; try assumption; contradiction.
  - intros (HU & HUn & HP & HM & HS & HA & HD & HPr & HR & HO).
    unfold IDPAccount_String.
    rewrite <- HU, <- HUn, <- HM, <- HS, <- HA, <- HD, <- HPr, <- HR, <- HP.
    destruct (String.eqb_spec (Provider ia) "OneLogin") as [E|E];
      [destruct (HO E) as [-> ->]|]; reflexivity.
Qed.

Lemma IDPAccount_String_eq_iff_witness :
  IDPAccount_String example_timeout = IDPAccount_String NewIDPAccount.
Proof.
  apply (proj2 (IDPAccount_String_eq_iff example_timeout NewIDPAccount
                  ltac:(repeat split) ltac:(repeat split))).
  repeat split; discriminate.
Defined.
